(** * A shallow embedding of tools/pine-syntax-checker.py

    The class [PineSyntaxChecker] is modelled as a record of its two lists
    ([self.errors], [self.warnings]); each check of [check_basic_syntax] is a
    function from the document text to the findings it appends, in the order
    the source appends them.

    Text is Stdlib [string] (ASCII characters).  Python's [str.strip], and
    the regex classes [\s], [\w], [\d] are modelled on that ASCII range.
    Python regular expressions are modelled by a small backtracking matcher
    ([Regex] below) that tries alternatives and greedy repetitions in the
    same order as [re], so [re.search] / [re.match] return the same match
    and the same group 1. *)

From Stdlib Require Import Ascii String List Bool Arith ZArith Lia.
From stdpp Require Import base gmap strings pretty.
Import ListNotations.
Open Scope string_scope.

(* ------------------------------------------------------------------ *)
(** ** Characters and Python string methods *)

Definition code (c : ascii) : nat := nat_of_ascii c.

(** [str.isspace] on ASCII: \t \n \v \f \r, the separators 0x1c-0x1f, space. *)
Definition is_space (c : ascii) : bool :=
  let n := code c in (Nat.leb 9 n && Nat.leb n 13) || (Nat.leb 28 n && Nat.leb n 32).

Definition is_digit (c : ascii) : bool :=
  let n := code c in Nat.leb 48 n && Nat.leb n 57.

(** Regex [\w] on ASCII: letters, digits and underscore. *)
Definition is_word (c : ascii) : bool :=
  let n := code c in
  is_digit c || (Nat.leb 65 n && Nat.leb n 90) || (Nat.leb 97 n && Nat.leb n 122) || Nat.eqb n 95.

Definition ceq (a b : ascii) : bool := Ascii.eqb a b.

Definition NL : ascii := ascii_of_nat 10.

(** [s.lstrip()] and [s.rstrip()]; [s.strip()] is both. *)
Fixpoint lstrip (s : string) : string :=
  match s with
  | EmptyString => EmptyString
  | String c s' => if is_space c then lstrip s' else s
  end.

Fixpoint rstrip (s : string) : string :=
  match s with
  | EmptyString => EmptyString
  | String c s' =>
      let r := rstrip s' in
      match r with
      | EmptyString => if is_space c then EmptyString else String c EmptyString
      | _ => String c r
      end
  end.

Definition strip (s : string) : string := rstrip (lstrip s).

(** [s.startswith(p)] *)
Definition startswith (s p : string) : bool := String.prefix p s.

(** [s.endswith(p)] *)
Fixpoint endswith (s p : string) : bool :=
  String.eqb s p ||
  match s with
  | EmptyString => false
  | String _ s' => endswith s' p
  end.

(** [p in s] for strings: substring test. *)
Fixpoint contains (s p : string) : bool :=
  String.prefix p s ||
  match s with
  | EmptyString => false
  | String _ s' => contains s' p
  end.

(** [s.count(c)] for a one-character [c]. *)
Fixpoint count_char (s : string) (c : ascii) : nat :=
  match s with
  | EmptyString => 0
  | String d s' => (if ceq d c then 1 else 0) + count_char s' c
  end.

(** [s.split('\n')]: always at least one piece. *)
Fixpoint split_lines (s : string) : list string :=
  match s with
  | EmptyString => [EmptyString]
  | String c s' =>
      let parts := split_lines s' in
      if ceq c NL then EmptyString :: parts
      else match parts with
           | p :: ps => String c p :: ps
           | [] => [String c EmptyString]
           end
  end.

(** [enumerate(xs, 1)] *)
Fixpoint enumerate {A} (i : nat) (xs : list A) : list (nat * A) :=
  match xs with
  | [] => []
  | x :: xs' => (i, x) :: enumerate (S i) xs'
  end.

(** Joining lines back with '\n' (the inverse of [split_lines]). *)
Fixpoint join_lines (ls : list string) : string :=
  match ls with
  | [] => EmptyString
  | [l] => l
  | l :: ls' => l ++ String NL (join_lines ls')
  end.

(* ------------------------------------------------------------------ *)
(** ** Python regular expressions *)

Module Regex.

Inductive regex : Type :=
| RClass (p : ascii -> bool)   (** one character of a class *)
| RSeq (r1 r2 : regex)
| RAlt (r1 r2 : regex)         (** [r1|r2], left first *)
| RStar (r : regex)            (** greedy [r*] *)
| RGroup (r : regex)           (** capture group 1 *)
| RBol                         (** [^] *)
| RWordB.                      (** [\b] *)

(** Matcher position: the character before it (None at the start of the
    string), the text after it, and group 1 when it has been captured. *)
Record mstate := MState { prev : option ascii; rest : string; cap : option string }.

Definition word_at (o : option ascii) : bool :=
  match o with Some c => is_word c | None => false end.

Definition head (s : string) : option ascii :=
  match s with EmptyString => None | String c _ => Some c end.

(** Continuation-passing backtracking matcher; the first success in [re]'s
    order is returned.  A repetition only iterates on a non-empty step. *)
Fixpoint mt (r : regex) (k : mstate -> option mstate) (s : mstate) : option mstate :=
  match r with
  | RClass p =>
      match rest s with
      | String c s' => if p c then k (MState (Some c) s' (cap s)) else None
      | EmptyString => None
      end
  | RSeq r1 r2 => mt r1 (fun s1 => mt r2 k s1) s
  | RAlt r1 r2 =>
      match mt r1 k s with
      | Some x => Some x
      | None => mt r2 k s
      end
  | RStar r1 =>
      (fix loop (n : nat) (s0 : mstate) {struct n} : option mstate :=
         match n with
         | O => k s0
         | S n' =>
             match mt r1 (fun s1 => if Nat.ltb (String.length (rest s1)) (String.length (rest s0))
                                    then loop n' s1 else None) s0 with
             | Some x => Some x
             | None => k s0
             end
         end) (S (String.length (rest s))) s
  | RGroup r1 =>
      mt r1 (fun s1 =>
               k (MState (prev s1) (rest s1)
                    (Some (substring 0 (String.length (rest s) - String.length (rest s1)) (rest s))))) s
  | RBol => match prev s with None => k s | Some _ => None end
  | RWordB => if Bool.eqb (word_at (prev s)) (word_at (head (rest s))) then None else k s
  end.

(** [re.match(r, s)] *)
Definition rmatch (r : regex) (s : string) : option mstate :=
  mt r Some (MState None s None).

Fixpoint search_from (r : regex) (p : option ascii) (s : string) : option mstate :=
  match mt r Some (MState p s None) with
  | Some x => Some x
  | None =>
      match s with
      | EmptyString => None
      | String c s' => search_from r (Some c) s'
      end
  end.

(** [re.search(r, s)] *)
Definition search (r : regex) (s : string) : option mstate := search_from r None s.

Definition found (o : option mstate) : bool := match o with Some _ => true | None => false end.

(** Pattern building blocks. *)
Definition chr (c : ascii) : regex := RClass (fun d => ceq d c).
Fixpoint lit (s : string) : regex :=
  match s with
  | EmptyString => RStar (RClass (fun _ => false))   (* matches the empty string *)
  | String c EmptyString => chr c
  | String c s' => RSeq (chr c) (lit s')
  end.
Definition eps : regex := RStar (RClass (fun _ => false)).
Definition plus (r : regex) : regex := RSeq r (RStar r).
Definition sp : regex := RClass is_space.          (** [\s] *)
Definition wd : regex := RClass is_word.           (** [\w] *)
Definition dg : regex := RClass is_digit.          (** [\d] *)
Definition notc (c : ascii) : regex := RClass (fun d => negb (ceq d c)).  (** [[^c]] *)
Fixpoint seqs (rs : list regex) : regex :=
  match rs with
  | [] => eps
  | [r] => r
  | r :: rs' => RSeq r (seqs rs')
  end.
Fixpoint alts (rs : list regex) : regex :=
  match rs with
  | [] => RClass (fun _ => false)
  | [r] => r
  | r :: rs' => RAlt r (alts rs')
  end.

End Regex.
Import Regex.

(* ------------------------------------------------------------------ *)
(** ** Findings *)

(** Entries of [self.errors]; the constructor names the source message. *)
Inductive error : Type :=
| EFileNotFound (path : string)                  (** "File not found: ..." *)
| EEncoding (path : string)                      (** "Encoding error in ..." *)
| EUnexpectedClose (i : nat) (c : ascii)         (** "Line i: Unexpected closing bracket 'c'" *)
| EMismatched (i : nat) (opening : ascii) (open_line : nat) (c : ascii)
                                                 (** "Line i: Mismatched brackets. Opened ... closed ..." *)
| EUnclosedBracket (line : nat) (c : ascii)      (** "Line line: Unclosed bracket 'c'" *)
| ENoDeclaration                                 (** "No indicator or strategy declaration found" *)
| EMultilineComment                              (** "Multiline comments (/* ... */) detected..." *)
| EMultilineArray                                (** "Multiline array in function call detected..." *)
| EIncompleteTernary (i : nat)                   (** "Line i: Incomplete ternary operator..." *)
| EExtraParen (i : nat) (start : nat)            (** "Line i: Extra closing parenthesis ... around line start" *)
| EUnclosedParen (last : nat) (start : nat)      (** "Line last: Unclosed parenthesis ... around line start ..." *)
| EAlreadyDefined (i : nat) (name : string) (first : nat)
                                                 (** "Line i: Variable 'name' is already defined on line first" *)
| EUndeclared (i : nat) (name : string)          (** "Line i: Undeclared identifier 'name' - variable used before declaration" *)
| EOther (text : string).                        (** any other message of the rule tables *)

(** Entries of [self.warnings]. *)
Inductive warning : Type :=
| WNoVersionStart                                (** "File should start with //@version directive" *)
| WOutdated (v : nat)                            (** "Pine Script version v is outdated..." *)
| WNewer (v : nat)                               (** "Pine Script version v is newer than expected..." *)
| WNoVersion                                     (** "Could not determine Pine Script version" *)
| WComplexMultiline                              (** "Complex multiline function call detected..." *)
| WMathPrefix (i : nat) (func : string)          (** "Line i: Mathematical function 'func()' should use 'math.func()'..." *)
| WOther (text : string).

(* ------------------------------------------------------------------ *)
(** ** Bracket matching (check_basic_syntax, lines 46-64) *)

Module Brackets.

(** [brackets = {'(': ')', '[': ']', '{': '}'}] *)
Definition closer_of (c : ascii) : option ascii :=
  if ceq c "(" then Some ")"%char
  else if ceq c "[" then Some "]"%char
  else if ceq c "{" then Some "}"%char
  else None.

(** [char in brackets.values()] *)
Definition is_closer (c : ascii) : bool := ceq c ")" || ceq c "]" || ceq c "}".

(** The Python list [stack]: its last element [stack[-1]] is the head here. *)
Definition bstack := list (ascii * nat).

(** The body of [for char in line] on line [i]. *)
Definition step (i : nat) (st : bstack * list error) (c : ascii) : bstack * list error :=
  let '(stack, errs) := st in
  match closer_of c with
  | Some _ => ((c, i) :: stack, errs)
  | None =>
      if is_closer c then
        match stack with
        | [] => (stack, app errs [EUnexpectedClose i c])
        | (opening, open_line) :: stack' =>
            match closer_of opening with
            | Some cl => if ceq cl c then (stack', errs)
                         else (stack', app errs [EMismatched i opening open_line c])
            | None => (stack', errs)   (* never reached: only openers are pushed *)
            end
        end
      else (stack, errs)
  end.

Fixpoint scan_line (i : nat) (st : bstack * list error) (line : string) : bstack * list error :=
  match line with
  | EmptyString => st
  | String c line' => scan_line i (step i st c) line'
  end.

Definition scan (lines : list string) : bstack * list error :=
  fold_left (fun st '(i, line) => scan_line i st line) (enumerate 1 lines) ([], []).

(** The findings of lines 46-64. *)
Definition check (lines : list string) : list error :=
  let '(stack, errs) := scan lines in
  match stack with
  | [] => errs
  | (c, line) :: _ => app errs [EUnclosedBracket line c]
  end.

End Brackets.

(* ------------------------------------------------------------------ *)
(** ** Version directive (check_basic_syntax, lines 66-79) *)

Module Version.

(** [int(...)] of a string of decimal digits. *)
Fixpoint int_acc (acc : nat) (s : string) : nat :=
  match s with
  | EmptyString => acc
  | String c s' => int_acc (10 * acc + (code c - 48)) s'
  end.
Definition int_of (s : string) : nat := int_acc 0 s.

(** [r'//@version=(\d+)'] *)
Definition version_re : regex := RSeq (lit "//@version=") (RGroup (plus dg)).

(** The warnings of lines 66-79, in order. *)
Definition check (content : string) : list warning :=
  (if startswith (strip content) "//@version" then [] else [WNoVersionStart]) ++
  match search version_re content with
  | Some m =>
      match cap m with
      | Some ds =>
          let version := int_of ds in
          if Nat.ltb version 5 then [WOutdated version]
          else if Nat.ltb 6 version then [WNewer version]
          else []
      | None => []
      end
  | None => [WNoVersion]
  end.

End Version.

(* ------------------------------------------------------------------ *)
(** ** indicator/strategy declaration (check_basic_syntax, lines 81-83) *)

Module Declaration.

(** [r'(?:indicator|strategy)\s*\('] *)
Definition decl_re : regex :=
  seqs [RAlt (lit "indicator") (lit "strategy"); RStar sp; chr "("].

Definition check (content : string) : list error :=
  if found (search decl_re content) then [] else [ENoDeclaration].

End Declaration.

(* ------------------------------------------------------------------ *)
(** ** Incomplete ternary operators (check_basic_syntax, lines 99-109) *)

Module Ternary.

Definition line_errors (lines_list : list string) (i : nat) (line : string) : list error :=
  let stripped := strip line in
  if endswith stripped "?"
     && negb (Nat.eqb (count_char stripped "?") (count_char stripped ":")) then
    if Nat.ltb i (length lines_list - 1) then
      let next_line := strip (nth i lines_list EmptyString) in
      if negb (contains next_line ":" || contains next_line "?")
      then [EIncompleteTernary i] else []
    else []
  else [].

Definition check (content : string) : list error :=
  let lines_list := split_lines content in
  flat_map (fun '(i, line) => line_errors lines_list i line) (enumerate 1 lines_list).

End Ternary.

(* ------------------------------------------------------------------ *)
(** ** Multiline call tracker (check_basic_syntax, lines 111-146) *)

Module Parens.

Record pstate := PState { open_parens : Z; multiline_start : nat; in_multiline_call : bool }.

Definition init : pstate := PState 0 0 false.

(** The body of [for char in stripped] on line [i]. *)
Definition char_step (i : nat) (ps : pstate) (c : ascii) : pstate :=
  if ceq c "(" then
    if in_multiline_call ps then PState (open_parens ps + 1) (multiline_start ps) true
    else PState (open_parens ps + 1) i true
  else if ceq c ")" then
    PState (open_parens ps - 1) (multiline_start ps) (in_multiline_call ps)
  else ps.

Fixpoint count_line (i : nat) (ps : pstate) (s : string) : pstate :=
  match s with
  | EmptyString => ps
  | String c s' => count_line i (char_step i ps c) s'
  end.

(** The end-of-line decision (lines 134-142) after counting line [i]. *)
Definition end_of_line (i : nat) (ps : pstate) (errs : list error) : pstate * list error :=
  if in_multiline_call ps && Z.eqb (open_parens ps) 0 then
    (PState (open_parens ps) (multiline_start ps) false, errs)
  else if in_multiline_call ps && Nat.ltb (multiline_start ps) i && Z.ltb 0 (open_parens ps) then
    (ps, errs)                                          (* continue *)
  else if in_multiline_call ps && Z.ltb (open_parens ps) 0 then
    (PState 0 (multiline_start ps) false, app errs [EExtraParen i (multiline_start ps)])
  else (ps, errs).

(** One iteration of [for i, line in enumerate(lines_list, 1)]. *)
Definition line_step (st : pstate * list error) (il : nat * string) : pstate * list error :=
  let '(ps, errs) := st in
  let '(i, line) := il in
  let stripped := strip line in
  if startswith stripped "//" || String.eqb stripped EmptyString then (ps, errs)
  else end_of_line i (count_line i ps stripped) errs.

Definition scan (lines_list : list string) : pstate * list error :=
  fold_left line_step (enumerate 1 lines_list) (init, []).

Definition check (content : string) : list error :=
  let lines_list := split_lines content in
  let '(ps, errs) := scan lines_list in
  if Z.ltb 0 (open_parens ps)
  then app errs [EUnclosedParen (length lines_list) (multiline_start ps)]
  else errs.

End Parens.

(* ------------------------------------------------------------------ *)
(** ** Missing math. prefix (check_basic_syntax, lines 196-210) *)

Module MathPrefix.

Definition math_functions : list string :=
  ["sin"; "cos"; "tan"; "asin"; "acos"; "atan"; "sinh"; "cosh"; "tanh";
   "sqrt"; "log"; "log10"; "exp"; "pow"; "abs"; "round"; "ceil"; "floor";
   "max"; "min"].

(** [rf'\b{func}\s*\('] as a Python string: the characters of the regex
    source text, backslashes included. *)
Definition pattern (func : string) : string := "\b" ++ func ++ "\s*\(".

(** [r'\b(strategy|color|label|table|plot|fill)\.' + func]; only whether it
    matches is used. *)
Definition non_math_re (func : string) : regex :=
  seqs [RWordB; alts (map lit ["strategy"; "color"; "label"; "table"; "plot"; "fill"]);
        chr "."; lit func].

Definition line_warnings (func : string) (i : nat) (line : string) : list warning :=
  if contains line (pattern func) && negb (startswith (strip line) "//")
     && negb (contains line ("math." ++ func)) then
    if negb (found (search (non_math_re func) line)) then [WMathPrefix i func] else []
  else [].

Definition check (lines : list string) : list warning :=
  flat_map (fun func => flat_map (fun '(i, line) => line_warnings func i line) (enumerate 1 lines))
           math_functions.

End MathPrefix.

(* ------------------------------------------------------------------ *)
(** ** Duplicate declarations (check_basic_syntax, lines 320-344) *)

Module Decls.

Definition is_assign_op (c : ascii) : bool := ceq c ":" || ceq c "=".

(** [r'var\s+\w+\s+(\w+)\s*='] *)
Definition var_re : regex :=
  seqs [lit "var"; plus sp; plus wd; plus sp; RGroup (plus wd); RStar sp; chr "="].

(** [r'^\s*\w+\s*[:=]'] *)
Definition assign_re : regex :=
  seqs [RBol; RStar sp; plus wd; RStar sp; RClass is_assign_op].

(** [r'^\s*(\w+)\s*[:=]'] *)
Definition assign_name_re : regex :=
  seqs [RBol; RStar sp; RGroup (plus wd); RStar sp; RClass is_assign_op].

(** The dict [declared_vars] maps a name to the line it was recorded on. *)
Definition dstate : Type := gmap string nat * list error.

(** One iteration of [for i, line in enumerate(lines, 1)]. *)
Definition line_step (st : dstate) (il : nat * string) : dstate :=
  let '(declared_vars, errs) := st in
  let '(i, line) := il in
  let stripped := strip line in
  if negb (String.eqb stripped EmptyString) && negb (startswith stripped "//") then
    if startswith stripped "var " then
      match rmatch var_re stripped with
      | Some m =>
          match cap m with
          | Some var_name =>
              match declared_vars !! var_name with
              | Some first => (declared_vars, app errs [EAlreadyDefined i var_name first])
              | None => (<[var_name := i]> declared_vars, errs)
              end
          | None => st
          end
      | None => st
      end
    else if found (rmatch assign_re stripped) && negb (startswith stripped "var ") then
      match rmatch assign_name_re stripped with
      | Some m =>
          match cap m with
          | Some var_name =>
              match declared_vars !! var_name with
              | Some _ => st
              | None => (<[var_name := i]> declared_vars, errs)
              end
          | None => st
          end
      | None => st
      end
    else st
  else st.

Definition scan_from (st : dstate) (i : nat) (lines : list string) : dstate :=
  fold_left line_step (enumerate i lines) st.

Definition check (lines : list string) : list error :=
  snd (scan_from (∅, []) 1 lines).

End Decls.

(* ------------------------------------------------------------------ *)
(** ** Use before declaration (check_basic_syntax, lines 346-374) *)

Module Undeclared.

Definition common_undeclared_patterns : list string :=
  ["minCycleLength"; "maxCycleLength"; "currCycleBarCount"; "currCycleLow"; "currCycleHigh"].

(** [r'\b<name>\b'] *)
Definition use_re (name : string) : regex := seqs [RWordB; lit name; RWordB].

(** [r'^(\w+)\s*\([^)]*\)\s*=>'] *)
Definition sig_re : regex :=
  seqs [RBol; RGroup (plus wd); RStar sp; chr "("; RStar (notc ")"); chr ")"; RStar sp; lit "=>"].

(** [rf'\b{var_name}\s*[:=]'] *)
Definition assigned_re (name : string) : regex :=
  seqs [RWordB; lit name; RStar sp; RClass Decls.is_assign_op].

(** [rf'\bvar\s+\w+\s+{var_name}\s*='] *)
Definition var_decl_re (name : string) : regex :=
  seqs [RWordB; lit "var"; plus sp; plus wd; plus sp; lit name; RStar sp; chr "="].

(** The loop [for j in range(i)] over the raw [lines[j]]. *)
Definition declared_before (lines : list string) (i : nat) (name : string) : bool :=
  existsb (fun l => found (search (assigned_re name) l) || found (search (var_decl_re name) l))
          (firstn i lines).

(** [stripped and not stripped.startswith('//') and not stripped.startswith('//@')] *)
Definition scanned (stripped : string) : bool :=
  negb (String.eqb stripped EmptyString) && negb (startswith stripped "//")
  && negb (startswith stripped "//@").

(** The function-signature skip of lines 361-362. *)
Definition signature (stripped : string) : bool :=
  contains stripped "=>" && found (rmatch sig_re stripped).

Definition line_errors (lines : list string) (i : nat) (line : string) : list error :=
  let stripped := strip line in
  if scanned stripped then
    if signature stripped then []
    else flat_map (fun var_name =>
           if found (search (use_re var_name) stripped) then
             if declared_before lines i var_name then [] else [EUndeclared i var_name]
           else []) common_undeclared_patterns
  else [].

Definition check (lines : list string) : list error :=
  flat_map (fun '(i, line) => line_errors lines i line) (enumerate 1 lines).

End Undeclared.

(* ------------------------------------------------------------------ *)
(** ** The checker object (check_file, get_summary) *)

Module Checker.

Record checker := Checker { errors : list error; warnings : list warning }.

(** [PineSyntaxChecker()] *)
Definition new : checker := Checker [] [].

(** The outcome of [open(file_path, 'r', encoding='utf-8').read()]. *)
Inductive read_result : Type :=
| Read (content : string)
| NotFound
| DecodeError.

(** A rule pass, such as [check_basic_syntax] or [check_common_issues]:
    given [content] and [lines], the errors and warnings it appends. *)
Definition rules : Type := string -> list string -> list error * list warning.

Definition append (self : checker) (fw : list error * list warning) : checker :=
  Checker (app (errors self) (fst fw)) (app (warnings self) (snd fw)).

(** [check_file]: [basic] and [common] are the two rule passes. *)
Definition check_file (basic common : rules) (file_path : string) (r : read_result)
    (self : checker) : bool * checker :=
  match r with
  | NotFound => (false, Checker (app (errors self) [EFileNotFound file_path]) (warnings self))
  | DecodeError => (false, Checker (app (errors self) [EEncoding file_path]) (warnings self))
  | Read content =>
      let lines := split_lines content in
      let self1 := append self (basic content lines) in
      let self2 := append self1 (common content lines) in
      (Nat.eqb (length (errors self2)) 0, self2)
  end.

(** [get_summary]: errors, warnings, passed. *)
Definition get_summary (self : checker) : nat * nat * bool :=
  (length (errors self), length (warnings self), Nat.eqb (length (errors self)) 0).

(** The checks of [check_basic_syntax] embedded in this file, in source
    order within each list (the lexical rule tables are not included). *)
Definition basic_modelled : rules := fun content lines =>
  (Brackets.check lines ++ Declaration.check content ++ Ternary.check content
     ++ Parens.check content ++ Decls.check lines ++ Undeclared.check lines,
   Version.check content ++ MathPrefix.check lines)%list.

End Checker.

(* ------------------------------------------------------------------ *)
(** ** Specification-side notions *)

(** Documents whose delimiters are correctly nested: every opener of
    [brackets] is closed by its own closer, in LIFO order, and no closer is
    left over. *)
Inductive balanced : list ascii -> Prop :=
| bal_nil : balanced []
| bal_other (c : ascii) (s : list ascii) :
    Brackets.closer_of c = None -> Brackets.is_closer c = false ->
    balanced s -> balanced (c :: s)
| bal_pair (o cl : ascii) (s t : list ascii) :
    Brackets.closer_of o = Some cl -> balanced s -> balanced t ->
    balanced (o :: s ++ cl :: t).

(** All characters of all lines, in document order. *)
Definition doc_chars (lines : list string) : list ascii :=
  concat (map list_ascii_of_string lines).

(** The same characters, each paired with its 1-based line number. *)
Definition char_stream (i : nat) (lines : list string) : list (nat * ascii) :=
  flat_map (fun '(j, line) => map (pair j) (list_ascii_of_string line)) (enumerate i lines).

Definition is_unclosed (e : error) : bool :=
  match e with EUnclosedBracket _ _ => true | _ => false end.

(** The text after a version number does not continue it. *)
Definition starts_with_digit (s : string) : bool :=
  match s with String c _ => is_digit c | EmptyString => false end.

(** "\n" *)
Definition nl : string := String NL EmptyString.

(* ------------------------------------------------------------------ *)
(** ** re.findall *)

Module FindAll.

(** [re.findall(r, s)] for a pattern without groups: the matched texts,
    left to right, the search resuming where the previous match ended.  The
    patterns used with it never match the empty string; on an empty match
    the scan moves on by one character.  [fuel] bounds the number of steps;
    [S (length s)] is always enough. *)
Fixpoint findall_from (r : regex) (fuel : nat) (p : option ascii) (s : string) : list string :=
  match fuel with
  | O => []
  | S f =>
      match mt r Some (MState p s None) with
      | Some st =>
          let m := substring 0 (String.length s - String.length (rest st)) s in
          if Nat.ltb (String.length (rest st)) (String.length s)
          then m :: findall_from r f (prev st) (rest st)
          else match s with
               | EmptyString => [m]
               | String c s' => m :: findall_from r f (Some c) s'
               end
      | None =>
          match s with
          | EmptyString => []
          | String c s' => findall_from r f (Some c) s'
          end
      end
  end.

Definition findall (r : regex) (s : string) : list string :=
  findall_from r (S (String.length s)) None s.

End FindAll.

(* ------------------------------------------------------------------ *)
(** ** check_common_issues (lines 413-464) *)

Module Common.

(** [int(version_match.group(1)) if version_match else 5] *)
Definition version_of (content : string) : nat :=
  match search Version.version_re content with
  | Some m => match cap m with Some ds => Version.int_of ds | None => 5 end
  | None => 5
  end.

Definition deprecated_funcs : list string := ["security"; "plotchar"; "fill"].

(** [r'\bvar\s+\w+\s*='] *)
Definition var_decl_re : regex := seqs [RWordB; lit "var"; plus sp; plus wd; RStar sp; chr "="].
(** [r'\barray\.\w+'] *)
Definition array_re : regex := seqs [RWordB; lit "array."; plus wd].
(** [r'\bif\s+\('] *)
Definition if_re : regex := seqs [RWordB; lit "if"; plus sp; chr "("].
(** [r'\bfor\s+'] *)
Definition for_re : regex := seqs [RWordB; lit "for"; plus sp].

Definition msg_security_v6 : string := "Using request.security - ensure proper error handling in v6".
Definition msg_risk_v6 : string :=
  "Strategy entries detected - consider using strategy.risk for better risk management in v6".
Definition msg_matrix_v6 : string := "Matrix operations detected but no matrix initialization found".

(** The block [if version >= 6:] (lines 440-452). *)
Definition v6_warnings (content : string) : list warning :=
  (if contains content "request.security" then [WOther msg_security_v6] else []) ++
  (if contains content "strategy.entry" && negb (contains content "strategy.risk")
   then [WOther msg_risk_v6] else []) ++
  (if contains content "matrix." then
     if negb (contains content "matrix.new") then [WOther msg_matrix_v6] else []
   else []).

(** The warnings appended by [check_common_issues], in order. *)
Definition warnings_of (content : string) : list warning :=
  let version := version_of content in
  flat_map (fun func => if contains content (func ++ "(")
                        then [WOther ("Using potentially deprecated function: " ++ func)] else [])
           deprecated_funcs ++
  map (fun decl => WOther ("Var declaration found: " ++ strip decl ++ " - ensure proper scoping"))
      (FindAll.findall var_decl_re content) ++
  (if negb (Nat.eqb (length (FindAll.findall array_re content)) 0)
      && negb (contains content "array.new")
   then [WOther "Array operations detected but no array initialization found"] else []) ++
  (if contains content "/"
   then [WOther "Division operations found - check for potential division by zero"] else []) ++
  (if Nat.leb 6 version then v6_warnings content else []) ++
  (if contains content "varip" || contains content "var()"
   then [WOther "Using varip or var() for variable persistence - ensure proper scoping"] else []) ++
  (if Nat.ltb 10 (length (FindAll.findall if_re content))
   then [WOther "High number of conditional statements - consider simplifying logic"] else []) ++
  (let loop_count := length (FindAll.findall for_re content) in
   if Nat.ltb 5 loop_count
   then [WOther ("High number of loops detected (" ++ pretty loop_count ++ ") - monitor performance")]
   else []).

(** As a rule pass of [check_file]: it appends no errors. *)
Definition check_common_issues : Checker.rules := fun content _ => ([], warnings_of content).

End Common.

(* ------------------------------------------------------------------ *)
(** ** main (lines 490-512) *)

Module Main.



End Main.

(* ================================================================== *)
(** * Proofs *)

Module BracketFacts.
Import Brackets.

Definition bstep (st : bstack * list error) (ic : nat * ascii) : bstack * list error :=
  step (fst ic) st (snd ic).

Lemma scan_line_fold (i : nat) (line : string) (st : bstack * list error) :
  scan_line i st line = fold_left (fun st c => step i st c) (list_ascii_of_string line) st.
Proof. revert st; induction line as [|c line IH]; intros st; simpl; auto. Qed.

Lemma scan_stream (lines : list string) (i : nat) (st : bstack * list error) :
  fold_left (fun st '(j, line) => scan_line j st line) (enumerate i lines) st
  = fold_left bstep (char_stream i lines) st.
Proof.
  revert i st; induction lines as [|l ls IH]; intros i st; simpl; auto.
  unfold char_stream in *; simpl. rewrite fold_left_app, <- IH, scan_line_fold.
  f_equal. generalize (list_ascii_of_string l); intros cs.
  revert st; induction cs as [|c cs IHc]; intros st; simpl; auto.
Qed.

Lemma stream_chars (lines : list string) (i : nat) :
  map snd (char_stream i lines) = doc_chars lines.
Proof.
  revert i; induction lines as [|l ls IH]; intros i; simpl; auto.
  unfold char_stream, doc_chars in *; simpl. rewrite map_app, IH, map_map; simpl.
  rewrite map_id; reflexivity.
Qed.

Lemma closer_of_closer (o cl : ascii) :
  closer_of o = Some cl -> closer_of cl = None /\ is_closer cl = true.
Proof.
  unfold closer_of.
  destruct (ceq o "("); [intros H; inversion H; subst; split; reflexivity|].
  destruct (ceq o "["); [intros H; inversion H; subst; split; reflexivity|].
  destruct (ceq o "{"); [intros H; inversion H; subst; split; reflexivity|].
  discriminate.
Qed.

Lemma ceq_refl (c : ascii) : ceq c c = true.
Proof. apply Ascii.eqb_refl. Qed.

Lemma fold_bstep_cons (j : nat) (c : ascii) (l : list (nat * ascii)) (st : bstack * list error) :
  fold_left bstep ((j, c) :: l) st = fold_left bstep l (step j st c).
Proof. reflexivity. Qed.

(** A correctly nested stretch of characters leaves the stack and the
    errors exactly as it found them. *)
Lemma balanced_fold (cs : list ascii) :
  balanced cs -> forall (l : list (nat * ascii)) st, map snd l = cs -> fold_left bstep l st = st.
Proof.
  induction 1 as [|c s Ho Hc Hs IH|o cl s t Hoc Hs IHs Ht IHt]; intros l [stack errs] Hl.
  - destruct l; [reflexivity | discriminate].
  - apply map_eq_cons in Hl as ([j c'] & tl & -> & Hc' & Htl); simpl in Hc'; subst c'.
    rewrite fold_bstep_cons. unfold step at 1. rewrite Ho, Hc. apply IH, Htl.
  - apply map_eq_cons in Hl as ([j o'] & tl & -> & Ho' & Htl); simpl in Ho'; subst o'.
    apply map_eq_app in Htl as (l1 & l2 & -> & H1 & H2).
    apply map_eq_cons in H2 as ([k cl'] & l3 & -> & Hcl & H3); simpl in Hcl; subst cl'.
    destruct (closer_of_closer _ _ Hoc) as [Hn Hc].
    rewrite fold_bstep_cons. unfold step at 1. rewrite Hoc.
    rewrite fold_left_app, (IHs l1) by exact H1.
    rewrite fold_bstep_cons. unfold step at 1. rewrite Hn, Hc, Hoc, ceq_refl.
    apply IHt, H3.
Qed.

Lemma step_no_unclosed (i : nat) (st : bstack * list error) (c : ascii) :
  filter is_unclosed (snd st) = [] -> filter is_unclosed (snd (step i st c)) = [].
Proof.
  destruct st as [stack errs]; simpl; intros H. unfold step.
  destruct (closer_of c); [exact H|].
  destruct (is_closer c); [|exact H].
  destruct stack as [|[opening open_line] stack']; simpl.
  - rewrite filter_app, H; reflexivity.
  - destruct (closer_of opening) as [cl|]; [|exact H].
    destruct (ceq cl c); simpl; [exact H|]. rewrite filter_app, H; reflexivity.
Qed.

Lemma scan_no_unclosed (lines : list string) :
  filter is_unclosed (snd (scan lines)) = [].
Proof.
  unfold scan. rewrite scan_stream.
  assert (G : forall l st, filter is_unclosed (snd st) = [] ->
                           filter is_unclosed (snd (fold_left bstep l st)) = []).
  { induction l as [|ic l IH]; intros st H; simpl; auto.
    apply IH. apply step_no_unclosed, H. }
  apply G; reflexivity.
Qed.

End BracketFacts.

Module RegexFacts.

Lemma prefix_cons (c : ascii) (w t : string) :
  String.prefix (String c w) (String c t) = String.prefix w t.
Proof. simpl. destruct (ascii_dec c c) as [_|n]; [reflexivity | contradiction]. Qed.

Lemma prefix_app_l (w x t : string) :
  String.prefix (w ++ x) t = true -> String.prefix w t = true.
Proof.
  revert t; induction w as [|c w IH]; intros t H; [destruct t; reflexivity|].
  destruct t as [|d t]; [discriminate|]. simpl in *.
  destruct (ascii_dec c d); [apply IH, H | discriminate].
Qed.

(** A literal only matches where its text starts. *)
Lemma mt_lit_prefix (w : string) :
  w <> EmptyString ->
  forall k st x, mt (lit w) k st = Some x -> String.prefix w (rest st) = true.
Proof.
  induction w as [|c w IH]; intros Hw k [p t cp] x H; [contradiction|]. simpl in *.
  destruct w as [|c' w'].
  - destruct t as [|d t]; simpl in H; [discriminate|].
    destruct (ceq d c) eqn:E; [|discriminate].
    apply Ascii.eqb_eq in E; subst d. rewrite prefix_cons; destruct t; reflexivity.
  - destruct t as [|d t]; simpl in H; [discriminate|].
    destruct (ceq d c) eqn:E; [|discriminate].
    apply Ascii.eqb_eq in E; subst d. rewrite prefix_cons.
    apply (IH ltac:(discriminate) _ _ _ H).
Qed.

(** [re.search] finds nothing in a text where none of the words that every
    match must start with occurs. *)
Lemma search_from_none (r : regex) (ws : list string) :
  (forall k st x, mt r k st = Some x -> existsb (fun w => String.prefix w (rest st)) ws = true) ->
  forall s p, (forall w, In w ws -> contains s w = false) -> search_from r p s = None.
Proof.
  intros Hr s; induction s as [|c s IH]; intros p Hs; simpl.
  - destruct (mt r Some (MState p EmptyString None)) eqn:E; [|reflexivity].
    apply Hr in E. simpl in E. apply existsb_exists in E as (w & Hin & Hp).
    specialize (Hs w Hin). destruct w; simpl in *; congruence.
  - destruct (mt r Some (MState p (String c s) None)) eqn:E.
    + apply Hr in E. simpl in E. apply existsb_exists in E as (w & Hin & Hp).
      specialize (Hs w Hin). simpl in Hs. rewrite Hp in Hs. discriminate.
    + apply IH. intros w Hin. specialize (Hs w Hin). simpl in Hs.
      apply orb_false_iff in Hs. apply Hs.
Qed.

(** A match found in a suffix is found by [re.search] on the whole text. *)
Lemma search_from_app (r : regex) (a s : string) (p : option ascii) :
  (forall q, found (mt r Some (MState q s None)) = true) ->
  found (search_from r p (a ++ s)) = true.
Proof.
  intros H; revert p; induction a as [|c a IH]; intros p; simpl.
  - specialize (H p). destruct s; simpl;
      destruct (mt r Some (MState p _ None)); try reflexivity; discriminate.
  - destruct (mt r Some (MState p (String c (a ++ s)) None)); [reflexivity | apply IH].
Qed.

Lemma rstrip_nonspace (c : ascii) (t : string) :
  is_space c = false -> rstrip (String c t) = String c (rstrip t).
Proof. intros H. simpl. destruct (rstrip t); [rewrite H|]; reflexivity. Qed.

Lemma prefix_rstrip (w t : string) :
  String.prefix w (rstrip t) = true -> String.prefix w t = true.
Proof.
  revert w; induction t as [|c t IH]; intros w H; [exact H|].
  simpl in H. destruct w as [|d w]; [reflexivity|].
  destruct (rstrip t) as [|e r] eqn:E.
  - destruct (is_space c); [discriminate|]. simpl in *.
    destruct (ascii_dec d c); [|discriminate]. destruct w; [destruct t; reflexivity | discriminate].
  - simpl in *. destruct (ascii_dec d c); [|discriminate]. apply IH. exact H.
Qed.

Lemma contains_prefix (s w : string) : String.prefix w s = true -> contains s w = true.
Proof. intros H. destruct s; cbn [contains]; rewrite H; reflexivity. Qed.

Lemma contains_lstrip (s w : string) : contains (lstrip s) w = true -> contains s w = true.
Proof.
  induction s as [|c s IH]; intros H; [exact H|]. simpl in H.
  destruct (is_space c); [|exact H]. simpl. rewrite (IH H). apply orb_true_r.
Qed.

(** A prefix of [s.strip()] occurs in [s]. *)
Lemma strip_prefix_contains (s w : string) :
  startswith (strip s) w = true -> contains s w = true.
Proof.
  unfold startswith, strip. intros H.
  apply contains_lstrip, contains_prefix, prefix_rstrip, H.
Qed.

End RegexFacts.

Module VersionFacts.
Import RegexFacts.

Lemma digit_not_space (d : ascii) : is_digit d = true -> is_space d = false.
Proof.
  unfold is_digit, is_space. intros H.
  apply andb_true_iff in H as [H1 H2]. apply Nat.leb_le in H1, H2.
  destruct (Nat.leb 9 (code d)) eqn:E1, (Nat.leb (code d) 13) eqn:E2,
           (Nat.leb 28 (code d)) eqn:E3, (Nat.leb (code d) 32) eqn:E4; simpl; auto;
    rewrite ?Nat.leb_le, ?Nat.leb_gt in *; lia.
Qed.

Lemma rstrip_app_nonspace (p t : string) :
  forallb (fun c => negb (is_space c)) (list_ascii_of_string p) = true ->
  rstrip (p ++ t) = p ++ rstrip t.
Proof.
  induction p as [|c p IH]; intros H; [reflexivity|]. simpl in H.
  apply andb_true_iff in H as [Hc Hp]. apply negb_true_iff in Hc.
  change (String c p ++ t) with (String c (p ++ t)).
  rewrite (rstrip_nonspace c _ Hc), (IH Hp). reflexivity.
Qed.

(** [re.search(r'//@version=(\d+)', ...)] on a text that starts with the
    directive and one digit [d] returns that digit as group 1. *)
Lemma version_search_start (d : ascii) (t : string) :
  is_digit d = true -> starts_with_digit t = false ->
  search Version.version_re ("//@version=" ++ String d t)
  = Some (MState (Some d) t (Some (String d EmptyString))).
Proof.
  intros Hd Ht. unfold search. simpl. rewrite Hd.
  destruct t as [|c t]; simpl in *.
  - reflexivity.
  - rewrite Ht. rewrite Nat.sub_succ_l, Nat.sub_diag by lia. reflexivity.
Qed.

Lemma version_check_start (d : ascii) (t : string) :
  is_digit d = true -> starts_with_digit t = false ->
  Version.check ("//@version=" ++ String d t)
  = (if Nat.ltb (code d - 48) 5 then [WOutdated (code d - 48)]
     else if Nat.ltb 6 (code d - 48) then [WNewer (code d - 48)] else []).
Proof.
  intros Hd Ht. unfold Version.check.
  rewrite version_search_start by assumption.
  unfold strip. change (lstrip ("//@version=" ++ String d t)) with ("//@version=" ++ String d t).
  rewrite rstrip_app_nonspace by reflexivity.
  rewrite (rstrip_nonspace d t (digit_not_space d Hd)). reflexivity.
Qed.

Lemma version_absent (content : string) :
  contains content "//@version" = false ->
  Version.check content = [WNoVersionStart; WNoVersion].
Proof.
  intros H. unfold Version.check.
  destruct (startswith (strip content) "//@version") eqn:Es.
  { apply strip_prefix_contains in Es. congruence. }
  unfold search. rewrite (search_from_none Version.version_re ["//@version"]); [reflexivity| |].
  - intros k st x Hm. unfold Version.version_re in Hm.
    change (mt (RSeq (lit "//@version=") (RGroup (plus dg))) k st)
      with (mt (lit "//@version=") (fun s1 => mt (RGroup (plus dg)) k s1) st) in Hm.
    apply mt_lit_prefix in Hm; [|discriminate].
    change "//@version=" with ("//@version" ++ "=") in Hm.
    apply prefix_app_l in Hm. simpl. rewrite Hm. reflexivity.
  - intros w [<-|[]]. exact H.
Qed.

End VersionFacts.

Module DeclarationFacts.
Import RegexFacts.

Lemma decl_re_prefix (k : mstate -> option mstate) (st x : mstate) :
  mt Declaration.decl_re k st = Some x ->
  existsb (fun w => String.prefix w (rest st)) ["indicator"; "strategy"] = true.
Proof.
  intros Hm.
  change (mt Declaration.decl_re k st) with
    (match mt (lit "indicator") (fun s1 => mt (RSeq (RStar sp) (chr "(")) k s1) st with
     | Some y => Some y
     | None => mt (lit "strategy") (fun s1 => mt (RSeq (RStar sp) (chr "(")) k s1) st
     end) in Hm.
  destruct (mt (lit "indicator") _ st) eqn:E.
  - apply mt_lit_prefix in E; [|discriminate]. simpl. rewrite E. reflexivity.
  - apply mt_lit_prefix in Hm; [|discriminate]. simpl. rewrite Hm. apply orb_true_r.
Qed.

Lemma decl_re_at_indicator (q : option ascii) (b : string) :
  found (mt Declaration.decl_re Some (MState q ("indicator(" ++ b) None)) = true.
Proof. reflexivity. Qed.

End DeclarationFacts.

(* ------------------------------------------------------------------ *)
(** ** Bracket matcher *)

(** C5: when the bracket stack is non-empty at the end of the document,
    the matcher emits exactly one "Unclosed bracket" error, and it names the
    top-of-stack entry (the most recently pushed surviving opener). *)
Theorem unclosed_bracket_reports_top (lines : list string) (c : ascii) (line : nat)
    (rest : Brackets.bstack) :
  fst (Brackets.scan lines) = (c, line) :: rest ->
  filter is_unclosed (Brackets.check lines) = [EUnclosedBracket line c].
Proof.
  intros Hst. unfold Brackets.check.
  pose proof (BracketFacts.scan_no_unclosed lines) as Hn.
  destruct (Brackets.scan lines) as [stack errs]; simpl in Hst, Hn; subst stack.
  rewrite filter_app, Hn; reflexivity.
Qed.

Lemma unclosed_bracket_reports_top_witness :
  fst (Brackets.scan ["foo(a"]) = [("("%char, 1)] /\
  filter is_unclosed (Brackets.check ["foo(a"]) = [EUnclosedBracket 1 "("].
Proof.
  split; [reflexivity|].
  apply (unclosed_bracket_reports_top ["foo(a"] "(" 1 []). reflexivity.
Defined.

(** C6: a document in which every opening delimiter has a correctly nested
    matching closer gets no finding from the bracket matcher. *)
Theorem balanced_no_bracket_findings (lines : list string) :
  balanced (doc_chars lines) -> Brackets.check lines = [].
Proof.
  intros Hb. unfold Brackets.check, Brackets.scan.
  rewrite BracketFacts.scan_stream.
  rewrite (BracketFacts.balanced_fold _ Hb _ _ (BracketFacts.stream_chars lines 1)).
  reflexivity.
Qed.

Lemma balanced_no_bracket_findings_witness :
  balanced (doc_chars ["f(a[1],"; "  {x})"]) /\ Brackets.check ["f(a[1],"; "  {x})"] = [].
Proof.
  assert (Hb : balanced (doc_chars ["f(a[1],"; "  {x})"])).
  { vm_compute. apply bal_other; [reflexivity | reflexivity |].
    apply (bal_pair "(" ")" ["a"; "["; "1"; "]"; ","; " "; " "; "{"; "x"; "}"]%char []);
      [reflexivity | | constructor].
    apply bal_other; [reflexivity | reflexivity |].
    apply (bal_pair "[" "]" ["1"]%char [","; " "; " "; "{"; "x"; "}"]%char);
      [reflexivity | repeat (constructor; try reflexivity) |].
    do 3 (apply bal_other; [reflexivity | reflexivity |]).
    apply (bal_pair "{" "}" ["x"]%char []);
      [reflexivity | repeat (constructor; try reflexivity) | constructor]. }
  split; [exact Hb | apply balanced_no_bracket_findings; exact Hb].
Defined.

(* ------------------------------------------------------------------ *)
(** ** Math prefix *)

(** C1 (divergence): the math-prefix check tests whether the regex SOURCE
    text [\bsin\s*\(] occurs literally in the line ([pattern in line]), so
    the line [y = sin(x)] gets no "should use math.sin" warning; only a line
    that literally contains that backslash text is flagged. *)
Theorem math_prefix_sin_not_flagged :
  MathPrefix.check ["y = sin(x)"] = [] /\
  MathPrefix.check ["y = math.sin(x)"] = [] /\
  MathPrefix.check ["y = \bsin\s*\(x)"] = [WMathPrefix 1 "sin"].
Proof. vm_compute. repeat split. Qed.

(* ------------------------------------------------------------------ *)
(** ** Ternary completeness *)

(** C4 (divergence): an incomplete ternary on the second-to-last line is not
    reported, because the look-ahead guard is [i < len(lines_list) - 1] with a
    1-based [i]; the same line followed by two lines is reported. *)
Theorem ternary_second_to_last_missed :
  Ternary.check ("x = c ?" ++ nl ++ "y") = [] /\
  Ternary.check ("x = c ?" ++ nl ++ "y" ++ nl ++ "z") = [EIncompleteTernary 1].
Proof. vm_compute. split; reflexivity. Qed.

(* ------------------------------------------------------------------ *)
(** ** Version directive *)

(** C2 (counterexample): a document without any version directive gets two
    warnings from the version check, not one. *)
Lemma version_missing_two_warnings :
  contains "indicator(x)" "//@version" = false /\
  Version.check "indicator(x)" = [WNoVersionStart; WNoVersion].
Proof. vm_compute. split; reflexivity. Qed.

(** C2 (amended): the version check only appends warnings.  A document
    with no [//@version] text gets exactly two ("File should start with
    //@version directive" and "Could not determine Pine Script version");
    a document starting with [//@version=4] (not followed by a further digit)
    gets exactly the "outdated" warning, [//@version=7] exactly the "newer
    than expected" warning, and [//@version=6] none. *)
Theorem version_check_cases :
  (forall content : string, contains content "//@version" = false ->
     Version.check content = [WNoVersionStart; WNoVersion]) /\
  (forall t : string, starts_with_digit t = false ->
     Version.check ("//@version=4" ++ t) = [WOutdated 4]) /\
  (forall t : string, starts_with_digit t = false ->
     Version.check ("//@version=7" ++ t) = [WNewer 7]) /\
  (forall t : string, starts_with_digit t = false ->
     Version.check ("//@version=6" ++ t) = []).
Proof.
  split; [exact VersionFacts.version_absent|].
  split; [|split]; intros t Ht.
  - exact (VersionFacts.version_check_start "4" t eq_refl Ht).
  - exact (VersionFacts.version_check_start "7" t eq_refl Ht).
  - exact (VersionFacts.version_check_start "6" t eq_refl Ht).
Qed.

Lemma version_check_cases_witness :
  Version.check ("plot(close)") = [WNoVersionStart; WNoVersion] /\
  Version.check ("//@version=4" ++ nl ++ "indicator(x)") = [WOutdated 4] /\
  Version.check ("//@version=7" ++ nl ++ "indicator(x)") = [WNewer 7] /\
  Version.check ("//@version=6" ++ nl ++ "indicator(x)") = [].
Proof.
  destruct version_check_cases as (H0 & H4 & H7 & H6).
  split; [apply H0; reflexivity|].
  split; [apply H4; reflexivity|].
  split; [apply H7; reflexivity | apply H6; reflexivity].
Defined.

(* ------------------------------------------------------------------ *)
(** ** indicator/strategy declaration *)

(** C9 (counterexample): [indicator (...)] contains neither [indicator(]
    nor [strategy(], yet the pattern [(?:indicator|strategy)\s*\(] accepts
    it, so no declaration error is emitted. *)
Lemma declaration_space_accepted :
  contains "indicator (x)" "indicator(" = false /\
  contains "indicator (x)" "strategy(" = false /\
  Declaration.check "indicator (x)" = [].
Proof. vm_compute. repeat split. Qed.

(** C9 (amended): the declaration check emits at most one error, exactly
    one ("No indicator or strategy declaration found") on a document that
    contains neither [indicator] nor [strategy], and none on any document
    containing [indicator(] somewhere. *)
Theorem declaration_check_cases :
  (forall content : string,
     Declaration.check content = [] \/ Declaration.check content = [ENoDeclaration]) /\
  (forall content : string,
     contains content "indicator" = false -> contains content "strategy" = false ->
     Declaration.check content = [ENoDeclaration]) /\
  (forall a b : string, Declaration.check (a ++ "indicator(" ++ b) = []).
Proof.
  split; [|split].
  - intros content. unfold Declaration.check.
    destruct (found _); [left | right]; reflexivity.
  - intros content Hi Hs. unfold Declaration.check, search.
    rewrite (RegexFacts.search_from_none _ ["indicator"; "strategy"]); [reflexivity| |].
    + exact DeclarationFacts.decl_re_prefix.
    + intros w [<-|[<-|[]]]; assumption.
  - intros a b. unfold Declaration.check, search.
    rewrite RegexFacts.search_from_app; [reflexivity|].
    exact (fun q => DeclarationFacts.decl_re_at_indicator q b).
Qed.

Lemma declaration_check_cases_witness :
  Declaration.check "plot(close)" = [ENoDeclaration] /\
  Declaration.check ("//@version=6" ++ nl ++ "indicator(x)") = [].
Proof.
  destruct declaration_check_cases as (_ & Hn & Ha).
  split; [apply Hn; reflexivity | apply (Ha ("//@version=6" ++ nl) "x)")].
Defined.

(* ------------------------------------------------------------------ *)
(** ** Multiline call tracker *)

(** C3 (counterexample): a lone [)] drives the depth to -1 while the in-call
    flag is unset; no error is emitted and the depth is not reset. *)
Lemma negative_depth_outside_call :
  Parens.scan [")"] = (Parens.PState (-1) 0 false, []) /\ Parens.check ")" = [].
Proof. vm_compute. split; reflexivity. Qed.

(** C3 (amended): the depth is examined once per scanned line, after all of
    its parentheses are counted.  If the in-call flag is then set and the
    depth is negative, "Extra closing parenthesis" (at the line, naming the
    call's start line) is appended and depth and flag are reset to 0 and
    false; if the flag is unset, nothing is appended and the counted state,
    negative depth included, is kept. *)
Theorem extra_paren_only_in_call (ps : Parens.pstate) (errs : list error) (i : nat) (line : string) :
  startswith (strip line) "//" = false -> String.eqb (strip line) EmptyString = false ->
  (Parens.in_multiline_call (Parens.count_line i ps (strip line)) = true ->
   (Parens.open_parens (Parens.count_line i ps (strip line)) < 0)%Z ->
   Parens.line_step (ps, errs) (i, line)
   = (Parens.PState 0 (Parens.multiline_start (Parens.count_line i ps (strip line))) false,
      app errs [EExtraParen i (Parens.multiline_start (Parens.count_line i ps (strip line)))])) /\
  (Parens.in_multiline_call (Parens.count_line i ps (strip line)) = false ->
   Parens.line_step (ps, errs) (i, line) = (Parens.count_line i ps (strip line), errs)).
Proof.
  intros Hc He. unfold Parens.line_step. rewrite Hc, He. simpl.
  unfold Parens.end_of_line.
  destruct (Parens.count_line i ps (strip line)) as [d s b]; simpl.
  split.
  - intros -> Hd. simpl.
    replace (Z.eqb d 0) with false by (symmetry; apply Z.eqb_neq; lia).
    replace (Z.ltb 0 d) with false by (symmetry; apply Z.ltb_ge; lia).
    replace (Z.ltb d 0) with true by (symmetry; apply Z.ltb_lt; lia).
    rewrite andb_false_r. reflexivity.
  - intros ->. reflexivity.
Qed.

Lemma extra_paren_only_in_call_witness :
  Parens.line_step (Parens.init, []) (3, "g(a))") = (Parens.PState 0 3 false, [EExtraParen 3 3]) /\
  Parens.line_step (Parens.init, []) (1, ")") = (Parens.PState (-1) 0 false, []).
Proof.
  split.
  - apply (proj1 (extra_paren_only_in_call Parens.init [] 3 "g(a))" eq_refl eq_refl) eq_refl).
    vm_compute. reflexivity.
  - apply (proj2 (extra_paren_only_in_call Parens.init [] 1 ")" eq_refl eq_refl) eq_refl).
Defined.

(* ------------------------------------------------------------------ *)
(** ** Duplicate declarations *)

Module DeclsFacts.

(** One line keeps a recorded first line, and any "already defined" error
    it adds for that name refers to it. *)
Lemma line_step_keeps (st : Decls.dstate) (il : nat * string) (x : string) (n : nat) :
  fst st !! x = Some n ->
  fst (Decls.line_step st il) !! x = Some n /\
  exists new, snd (Decls.line_step st il) = app (snd st) new /\
    forall j m, In (EAlreadyDefined j x m) new -> m = n.
Proof.
  destruct st as [dv errs], il as [i line]; simpl; intros Hx.
  unfold Decls.line_step.
  repeat case_match; simplify_eq/=;
    try (split; [assumption | exists []; rewrite app_nil_r; split; [reflexivity | intros ? ? []]]).
  - (* var re-declaration: an error naming the recorded line *)
    split; [assumption|]. eexists; split; [reflexivity|].
    intros j0 m0 [Heq|[]]. inversion Heq; subst. congruence.
  - (* var first declaration of another name *)
    split; [rewrite lookup_insert_ne; [assumption | congruence]|].
    exists []; rewrite app_nil_r; split; [reflexivity | intros ? ? []].
  - (* implicit declaration by assignment of another name *)
    split; [rewrite lookup_insert_ne; [assumption | congruence]|].
    exists []; rewrite app_nil_r; split; [reflexivity | intros ? ? []].
Qed.

Lemma scan_keeps (lines : list string) : forall (st : Decls.dstate) (i : nat) (x : string) (n : nat),
  fst st !! x = Some n ->
  fst (Decls.scan_from st i lines) !! x = Some n /\
  exists new, snd (Decls.scan_from st i lines) = app (snd st) new /\
    forall j m, In (EAlreadyDefined j x m) new -> m = n.
Proof.
  induction lines as [|l ls IH]; intros st i x n Hx.
  - split; [exact Hx|]. exists []. rewrite app_nil_r. split; [reflexivity | intros ? ? []].
  - change (Decls.scan_from st i (l :: ls)) with (Decls.scan_from (Decls.line_step st (i, l)) (S i) ls).
    destruct (line_step_keeps st (i, l) x n Hx) as [H1 (new1 & E1 & F1)].
    destruct (IH _ (S i) x n H1) as [H2 (new2 & E2 & F2)].
    split; [exact H2|]. exists (app new1 new2). rewrite E2, E1, app_assoc.
    split; [reflexivity|]. intros j m Hin. apply in_app_or in Hin as [Hin|Hin]; eauto.
Qed.

End DeclsFacts.

(** C7: [var int x = 1] then [var int x = 2] gives "already defined" at line
    2 naming line 1; and once a name is recorded on line [n], every later
    scan keeps it at [n] and every "already defined" error for it names [n]. *)
Theorem var_redeclaration_first_line (st : Decls.dstate) (i : nat) (lines : list string)
    (x : string) (n : nat) :
  fst st !! x = Some n ->
  Decls.check ["var int x = 1"; "var int x = 2"] = [EAlreadyDefined 2 "x" 1] /\
  fst (Decls.scan_from st i lines) !! x = Some n /\
  exists new, snd (Decls.scan_from st i lines) = app (snd st) new /\
    forall j m, In (EAlreadyDefined j x m) new -> m = n.
Proof.
  intros Hx. split; [vm_compute; reflexivity|].
  exact (DeclsFacts.scan_keeps lines st i x n Hx).
Qed.

Lemma var_redeclaration_first_line_witness :
  fst (Decls.scan_from (∅, []) 1 ["var int x = 1"]) !! "x" = Some 1 /\
  Decls.check ["var int x = 1"; "var int x = 2"; "x := 3"; "var int x = 4"]
  = [EAlreadyDefined 2 "x" 1; EAlreadyDefined 4 "x" 1].
Proof.
  assert (H : fst (Decls.scan_from (∅, []) 1 ["var int x = 1"]) !! "x" = Some 1)
    by (vm_compute; reflexivity).
  split; [exact H|].
  destruct (var_redeclaration_first_line _ 2 ["var int x = 2"; "x := 3"; "var int x = 4"] "x" 1 H)
    as (_ & _ & new & _ & _).
  vm_compute. reflexivity.
Defined.

(* ------------------------------------------------------------------ *)
(** ** Use before declaration *)

Lemma enumerate_in {A} (xs : list A) : forall (k j : nat) (x : A),
  In (j, x) (enumerate k xs) <-> k <= j /\ nth_error xs (j - k) = Some x.
Proof.
  induction xs as [|y ys IH]; intros k j x; simpl.
  - split; [intros []|]. intros [_ H]. destruct (j - k); discriminate.
  - rewrite IH. split.
    + intros [Heq|[Hle Hn]].
      * inversion Heq; subst. rewrite Nat.sub_diag. split; [lia | reflexivity].
      * split; [lia|]. replace (j - k) with (S (j - S k)) by lia. exact Hn.
    + intros [Hle Hn]. destruct (Nat.eq_dec j k) as [->|Hne].
      * left. rewrite Nat.sub_diag in Hn. inversion Hn; reflexivity.
      * right. split; [lia|]. replace (j - k) with (S (j - S k)) in Hn by lia. exact Hn.
Qed.

(** C8 (counterexample): a declaration written only in a comment line is not
    recorded by the declaration tracker, yet the forward-reference check
    counts it (it searches the raw earlier lines), so the later use of the
    watched name gets no error. *)
Lemma comment_declaration_counts :
  fst (Decls.scan_from (∅, []) 1 ["// minCycleLength = 1"]) !! "minCycleLength" = None /\
  found (search (Undeclared.use_re "minCycleLength") "x = minCycleLength") = true /\
  Undeclared.check ["// minCycleLength = 1"; "x = minCycleLength"] = [].
Proof. vm_compute. repeat split. Qed.

(** C8 (amended): line [i] gets "Undeclared identifier 'name'" exactly when it
    is a scanned line (non-blank, not starting with [//]), not a function
    signature ([=>] present and [^(\w+)\s*\([^)]*\)\s*=>] matching), [name]
    is on the watch-list and occurs as a whole word in it, and none of the
    raw lines 1..i (comment lines and line i itself included) contains
    [\bname\s*[:=]] or [\bvar\s+\w+\s+name\s*=]. *)
Theorem undeclared_by_text_search (lines : list string) (i : nat) (name : string) :
  In (EUndeclared i name) (Undeclared.check lines) <->
  exists line, 1 <= i /\ nth_error lines (i - 1) = Some line /\
    Undeclared.scanned (strip line) = true /\
    Undeclared.signature (strip line) = false /\
    In name Undeclared.common_undeclared_patterns /\
    found (search (Undeclared.use_re name) (strip line)) = true /\
    existsb (fun l => found (search (Undeclared.assigned_re name) l)
                      || found (search (Undeclared.var_decl_re name) l)) (firstn i lines) = false.
Proof.
  unfold Undeclared.check. rewrite in_flat_map. split.
  - intros ([j l] & Hjl & He). unfold Undeclared.line_errors in He.
    destruct (Undeclared.scanned (strip l)) eqn:Hs; [|contradiction].
    destruct (Undeclared.signature (strip l)) eqn:Hg; [contradiction|].
    apply in_flat_map in He as (nm & Hnm & He).
    destruct (found (search (Undeclared.use_re nm) (strip l))) eqn:Hu; [|contradiction].
    destruct (Undeclared.declared_before lines j nm) eqn:Hd; [contradiction|].
    destruct He as [Heq|[]]. inversion Heq; subst j nm.
    apply enumerate_in in Hjl as [Hle Hn].
    exists l. repeat split; assumption.
  - intros (l & Hle & Hn & Hs & Hg & Hnm & Hu & Hd).
    exists (i, l). split; [apply enumerate_in; split; assumption|].
    unfold Undeclared.line_errors. rewrite Hs, Hg. apply in_flat_map.
    exists name. split; [exact Hnm|]. rewrite Hu.
    unfold Undeclared.declared_before. rewrite Hd. left; reflexivity.
Qed.

Lemma undeclared_by_text_search_witness :
  In (EUndeclared 2 "minCycleLength") (Undeclared.check ["y = 2"; "x = minCycleLength"]).
Proof.
  apply (proj2 (undeclared_by_text_search ["y = 2"; "x = minCycleLength"] 2 "minCycleLength")).
  exists "x = minCycleLength". vm_compute. repeat split; auto.
Defined.

(* ------------------------------------------------------------------ *)
(** ** The checker object *)

(** C10: [check_file] only appends to [self.errors] and [self.warnings]: a
    call on an instance adds exactly what the same call adds on a fresh
    instance, [get_summary] then counts both runs, the verdict is
    [len(self.errors) == 0] over both runs, and once an error has been
    recorded every later call returns False.  This holds for any rule passes
    [basic] and [common], since the source's passes only append. *)
Theorem check_file_accumulates (basic common : Checker.rules) (path : string)
    (r : Checker.read_result) (self : Checker.checker) :
  let fresh := snd (Checker.check_file basic common path r Checker.new) in
  let res := Checker.check_file basic common path r self in
  Checker.errors (snd res) = app (Checker.errors self) (Checker.errors fresh) /\
  Checker.warnings (snd res) = app (Checker.warnings self) (Checker.warnings fresh) /\
  Checker.get_summary (snd res)
  = (length (Checker.errors self) + length (Checker.errors fresh),
     length (Checker.warnings self) + length (Checker.warnings fresh),
     Nat.eqb (length (Checker.errors self) + length (Checker.errors fresh)) 0) /\
  fst res = Nat.eqb (length (Checker.errors (snd res))) 0 /\
  (Checker.errors self <> [] -> fst res = false).
Proof.
  intros fresh res. subst fresh res.
  assert (Hshape : exists fe fw,
    snd (Checker.check_file basic common path r self)
      = Checker.Checker (app (Checker.errors self) fe) (app (Checker.warnings self) fw) /\
    snd (Checker.check_file basic common path r Checker.new) = Checker.Checker fe fw /\
    fst (Checker.check_file basic common path r self)
      = Nat.eqb (length (app (Checker.errors self) fe)) 0).
  { destruct r as [content| |]; simpl.
    - exists (app (fst (basic content (split_lines content))) (fst (common content (split_lines content)))),
             (app (snd (basic content (split_lines content))) (snd (common content (split_lines content)))).
      unfold Checker.append; simpl. rewrite !app_assoc. repeat split.
    - exists [EFileNotFound path], []. rewrite app_nil_r, length_app, Nat.add_1_r.
      repeat split.
    - exists [EEncoding path], []. rewrite app_nil_r, length_app, Nat.add_1_r.
      repeat split. }
  destruct Hshape as (fe & fw & E1 & E2 & E3).
  rewrite E1, E2, E3. unfold Checker.get_summary; simpl. rewrite !length_app.
  repeat split.
  intros Hne. destruct (Checker.errors self); [contradiction Hne; reflexivity | reflexivity].
Qed.

Lemma check_file_accumulates_witness :
  let first := snd (Checker.check_file Checker.basic_modelled (fun _ _ => ([], [])) "a.pine"
                      (Checker.Read "plot(close)") Checker.new) in
  Checker.errors first = [ENoDeclaration] /\
  fst (Checker.check_file Checker.basic_modelled (fun _ _ => ([], [])) "b.pine"
         (Checker.Read ("//@version=6" ++ nl ++ "indicator(x)")) first) = false.
Proof.
  intros first.
  assert (H : Checker.errors first = [ENoDeclaration]) by (vm_compute; reflexivity).
  split; [exact H|].
  apply (check_file_accumulates Checker.basic_modelled (fun _ _ => ([], [])) "b.pine"
           (Checker.Read ("//@version=6" ++ nl ++ "indicator(x)")) first).
  rewrite H. discriminate.
Defined.

(* ================================================================== *)
(** * Further properties of the checker *)

(* ------------------------------------------------------------------ *)
(** ** Multiline call tracker: reported lines *)

Module ParensFacts.
Import Parens.

(** Within line [i]: an open call started on a line in [1..i]; outside a call
    the depth is not positive. *)
Definition line_inv (i : nat) (ps : pstate) : Prop :=
  (in_multiline_call ps = true -> 1 <= multiline_start ps <= i) /\
  (in_multiline_call ps = false -> (open_parens ps <= 0)%Z).

Lemma char_step_inv (i : nat) (ps : pstate) (c : ascii) :
  1 <= i -> line_inv i ps -> line_inv i (char_step i ps c).
Proof.
  intros Hi [H1 H2]. unfold char_step.
  destruct (ceq c "(").
  - destruct (in_multiline_call ps) eqn:E; split; simpl; intros; try discriminate; auto; lia.
  - destruct (ceq c ")"); [|split; assumption].
    split; simpl; intros H; [apply H1, H | specialize (H2 H); lia].
Qed.

Lemma count_line_inv (i : nat) (s : string) : forall ps,
  1 <= i -> line_inv i ps -> line_inv i (count_line i ps s).
Proof.
  induction s as [|c s IH]; intros ps Hi H; [exact H|].
  simpl. apply IH; [exact Hi|]. apply char_step_inv; assumption.
Qed.

(** Before line [k]: the state invariant, and every error so far is an
    "Extra closing parenthesis" at a line [j < k] naming a start in [1..j]. *)
Definition scan_inv (k : nat) (st : pstate * list error) : Prop :=
  (in_multiline_call (fst st) = true -> 1 <= multiline_start (fst st) < k) /\
  (in_multiline_call (fst st) = false -> (open_parens (fst st) <= 0)%Z) /\
  (forall e, In e (snd st) -> exists j s, e = EExtraParen j s /\ 1 <= s <= j /\ j < k).

Lemma line_step_inv (k : nat) (line : string) (st : pstate * list error) :
  1 <= k -> scan_inv k st -> scan_inv (S k) (line_step st (k, line)).
Proof.
  destruct st as [ps errs]. intros Hk (H1 & H2 & H3). simpl in H1, H2, H3. unfold scan_inv, line_step.
  destruct (startswith (strip line) "//" || String.eqb (strip line) EmptyString).
  - split; [|split]; simpl in *.
    + intros H; specialize (H1 H); lia.
    + exact H2.
    + intros e He. destruct (H3 e He) as (j & s & -> & Hs & Hj). exists j, s. repeat split; lia.
  - assert (Hl : line_inv k ps).
    { split; [intros H; specialize (H1 H); lia | exact H2]. }
    pose proof (count_line_inv k (strip line) ps Hk Hl) as [L1 L2].
    revert L1 L2. generalize (count_line k ps (strip line)). intros [d s b] L1 L2; simpl in *.
    unfold end_of_line; simpl.
    assert (Herr : forall e, In e errs -> exists j s0, e = EExtraParen j s0 /\ 1 <= s0 <= j /\ j < S k).
    { intros e He. destruct (H3 e He) as (j & s0 & -> & Hs & Hj). exists j, s0. repeat split; lia. }
    destruct b; simpl.
    + destruct (Z.eqb d 0) eqn:Ed; simpl.
      * split; [discriminate|]. split; [intros _; apply Z.eqb_eq in Ed; lia | exact Herr].
      * destruct (Nat.ltb s k && Z.ltb 0 d) eqn:Ep; simpl.
        { split; [intros _; specialize (L1 eq_refl); lia|]. split; [discriminate | exact Herr]. }
        destruct (Z.ltb d 0) eqn:En; simpl.
        { split; [discriminate|]. split; [intros _; lia|].
          intros e He. apply in_app_or in He as [He|[<-|[]]]; [apply Herr, He|].
          exists k, s. specialize (L1 eq_refl). repeat split; lia. }
        split; [intros _; specialize (L1 eq_refl); lia|]. split; [discriminate | exact Herr].
    + split; [discriminate|]. split; [intros _; apply L2; reflexivity | exact Herr].
Qed.

Lemma scan_fold_inv (lines : list string) : forall k st,
  1 <= k -> scan_inv k st ->
  scan_inv (k + length lines) (fold_left line_step (enumerate k lines) st).
Proof.
  induction lines as [|l ls IH]; intros k st Hk H; simpl.
  - rewrite Nat.add_0_r. exact H.
  - replace (k + S (length ls)) with (S k + length ls) by lia.
    apply IH; [lia|]. apply line_step_inv; assumption.
Qed.

End ParensFacts.

(** The multiline-call tracker only reports line numbers inside the
    document: an "Extra closing parenthesis" error at line [j] names a call
    start in [1..j], and an "Unclosed parenthesis" error names the last line
    and a call start in [1..last]. *)
Theorem paren_errors_within_document (content : string) (e : error) :
  In e (Parens.check content) ->
  (exists j s, e = EExtraParen j s /\ 1 <= s <= j /\ j <= length (split_lines content)) \/
  (exists s, e = EUnclosedParen (length (split_lines content)) s /\
             1 <= s <= length (split_lines content)).
Proof.
  unfold Parens.check.
  pose proof (ParensFacts.scan_fold_inv (split_lines content) 1 (Parens.init, []) (le_n 1))
    as Hinv.
  unfold Parens.scan. destruct (fold_left Parens.line_step _ _) as [ps errs] eqn:E.
  destruct Hinv as (H1 & H2 & H3).
  { split; [discriminate|]. split; [intros _; simpl; lia | intros ? []]. }
  simpl in *.
  assert (Herr : In e errs -> exists j s, e = EExtraParen j s /\ 1 <= s <= j /\ j <= length (split_lines content)).
  { intros He. destruct (H3 e He) as (j & s & -> & Hs & Hj). exists j, s. split; [reflexivity | lia]. }
  destruct (Z.ltb 0 (Parens.open_parens ps)) eqn:Ep.
  - intros He. apply in_app_or in He as [He|[<-|[]]]; [left; apply Herr, He|].
    right. exists (Parens.multiline_start ps). split; [reflexivity|].
    destruct (Parens.in_multiline_call ps) eqn:Ec.
    + specialize (H1 eq_refl). lia.
    + specialize (H2 eq_refl). apply Z.ltb_lt in Ep. lia.
  - intros He. left. apply Herr, He.
Qed.

Lemma paren_errors_within_document_witness :
  In (EUnclosedParen 3 2) (Parens.check ("x = 1" ++ nl ++ "f(a," ++ nl ++ "b")) /\
  1 <= 2 <= 3.
Proof.
  assert (H : In (EUnclosedParen 3 2) (Parens.check ("x = 1" ++ nl ++ "f(a," ++ nl ++ "b")))
    by (vm_compute; left; reflexivity).
  split; [exact H|].
  destruct (paren_errors_within_document _ _ H) as [(j & s & Heq & _)|(s & Heq & Hs)];
    [discriminate|]. inversion Heq; subst. exact Hs.
Defined.

(* ------------------------------------------------------------------ *)
(** ** Bracket matcher: reported lines *)

Lemma enumerate_app {A} (l1 l2 : list A) : forall i,
  enumerate i (app l1 l2) = app (enumerate i l1) (enumerate (i + length l1) l2).
Proof.
  induction l1 as [|x l1 IH]; intros i; simpl; [rewrite Nat.add_0_r; reflexivity|].
  rewrite IH. do 3 f_equal. lia.
Qed.

Module BracketLines.
Import Brackets.

(** What a finding of the matcher says about its lines, before line [k]. *)
Definition err_ok (k : nat) (e : error) : Prop :=
  match e with
  | EUnexpectedClose j _ => 1 <= j < k
  | EMismatched j _ ol _ => 1 <= ol <= j /\ j < k
  | _ => False
  end.

Definition inv (k : nat) (st : bstack * list error) : Prop :=
  (forall c l, In (c, l) (fst st) -> 1 <= l < k) /\
  (forall e, In e (snd st) -> err_ok k e).

Lemma inv_mono (k k' : nat) (st : bstack * list error) :
  k <= k' -> inv k st -> inv k' st.
Proof.
  intros Hk [H1 H2]. split.
  - intros c l Hin. specialize (H1 c l Hin). lia.
  - intros e He. specialize (H2 e He). destruct e; simpl in *; lia.
Qed.

Lemma step_inv (i : nat) (st : bstack * list error) (c : ascii) :
  1 <= i -> inv (S i) st -> inv (S i) (step i st c).
Proof.
  destruct st as [stack errs]. intros Hi [H1 H2]; simpl in *. unfold step.
  assert (Happ : forall e0, err_ok (S i) e0 ->
            forall e, In e (app errs [e0]) -> err_ok (S i) e).
  { intros e0 H0 e He. apply in_app_or in He as [He|[<-|[]]]; auto. }
  destruct (closer_of c).
  - split; simpl; [|exact H2].
    intros c' l [Heq|Hin]; [inversion Heq; subst; lia | apply (H1 c' l Hin)].
  - destruct (is_closer c); [|split; assumption].
    destruct stack as [|[opening open_line] stack'].
    + split; [exact H1|]. apply Happ; simpl; lia.
    + assert (Ht : forall c' l, In (c', l) stack' -> 1 <= l < S i)
        by (intros c' l Hin; apply (H1 c' l); right; exact Hin).
      specialize (H1 opening open_line (or_introl eq_refl)).
      destruct (closer_of opening) as [cl|]; [|split; assumption].
      destruct (ceq cl c); [split; assumption|].
      split; [exact Ht|]. apply Happ; simpl; lia.
Qed.

Lemma scan_line_inv (i : nat) (line : string) : forall st,
  1 <= i -> inv (S i) st -> inv (S i) (scan_line i st line).
Proof.
  induction line as [|c line IH]; intros st Hi H; simpl; [exact H|].
  apply IH; [exact Hi|]. apply step_inv; assumption.
Qed.

Lemma scan_inv (lines : list string) : forall k st,
  1 <= k -> inv k st ->
  inv (k + length lines) (fold_left (fun st '(i, line) => scan_line i st line) (enumerate k lines) st).
Proof.
  induction lines as [|l ls IH]; intros k st Hk H; simpl; [rewrite Nat.add_0_r; exact H|].
  replace (k + S (length ls)) with (S k + length ls) by lia.
  apply IH; [lia|]. apply scan_line_inv; [exact Hk|]. apply (inv_mono k); [lia | exact H].
Qed.

Lemma closer_not_opener (c : ascii) : is_closer c = true -> closer_of c = None.
Proof.
  unfold is_closer. intros H.
  repeat (apply orb_true_iff in H as [H|H]); apply Ascii.eqb_eq in H; subst c; reflexivity.
Qed.

End BracketLines.

(** Every finding of the bracket matcher points inside the document: an
    unexpected closer and an unclosed opener at a line in [1..n], and a
    mismatched pair at a closing line in [1..n] whose opener is on that line
    or an earlier one. *)
Theorem bracket_findings_within_document (lines : list string) (e : error) :
  In e (Brackets.check lines) ->
  match e with
  | EUnexpectedClose j _ => 1 <= j <= length lines
  | EMismatched j _ ol _ => 1 <= ol <= j /\ j <= length lines
  | EUnclosedBracket l _ => 1 <= l <= length lines
  | _ => False
  end.
Proof.
  unfold Brackets.check.
  destruct (BracketLines.scan_inv lines 1 ([], []) (le_n 1)) as [H1 H2].
  { split; [intros c l [] | intros e' []]. }
  unfold Brackets.scan. destruct (fold_left _ _ _) as [stack errs]; simpl in *.
  assert (Herr : In e errs -> match e with
    | EUnexpectedClose j _ => 1 <= j <= length lines
    | EMismatched j _ ol _ => 1 <= ol <= j /\ j <= length lines
    | EUnclosedBracket l _ => 1 <= l <= length lines
    | _ => False end).
  { intros He. specialize (H2 e He). destruct e; simpl in H2; (contradiction || lia). }
  destruct stack as [|[c l] stack']; [exact Herr|].
  intros He. apply in_app_or in He as [He|[<-|[]]]; [apply Herr, He|].
  specialize (H1 c l (or_introl eq_refl)). lia.
Qed.

Lemma bracket_findings_within_document_witness :
  In (EMismatched 2 "(" 1 "]") (Brackets.check ["f(a,"; "b]"]) /\ 1 <= 1 <= 2 /\ 2 <= 2.
Proof.
  assert (H : In (EMismatched 2 "(" 1 "]") (Brackets.check ["f(a,"; "b]"]))
    by (vm_compute; left; reflexivity).
  split; [exact H|]. exact (bracket_findings_within_document _ _ H).
Defined.

(** A stray closer on a line appended to a correctly nested document is the
    one and only bracket finding, reported at that new last line. *)
Theorem stray_closer_after_balanced (lines : list string) (c : ascii) :
  balanced (doc_chars lines) -> Brackets.is_closer c = true ->
  Brackets.check (app lines [String c EmptyString])
  = [EUnexpectedClose (S (length lines)) c].
Proof.
  intros Hb Hc. unfold Brackets.check, Brackets.scan.
  rewrite enumerate_app, fold_left_app, (BracketFacts.scan_stream lines 1).
  rewrite (BracketFacts.balanced_fold _ Hb (char_stream 1 lines) ([], []))
    by apply BracketFacts.stream_chars.
  simpl. unfold Brackets.step. rewrite (BracketLines.closer_not_opener c Hc), Hc.
  reflexivity.
Qed.

Lemma stray_closer_after_balanced_witness :
  balanced (doc_chars ["f(x)"]) /\ Brackets.is_closer ")" = true /\
  Brackets.check ["f(x)"; ")"] = [EUnexpectedClose 2 ")"].
Proof.
  assert (Hb : balanced (doc_chars ["f(x)"])).
  { vm_compute. apply bal_other; [reflexivity | reflexivity |].
    apply (bal_pair "(" ")" ["x"%char] []); [reflexivity | | apply bal_nil].
    apply bal_other; [reflexivity | reflexivity | apply bal_nil]. }
  split; [exact Hb|]. split; [reflexivity|].
  exact (stray_closer_after_balanced ["f(x)"] ")" Hb eq_refl).
Defined.

(* ------------------------------------------------------------------ *)
(** ** Incomplete ternary check *)


(* ------------------------------------------------------------------ *)
(** ** Missing math. prefix check *)

Lemma contains_app_l (s w x : string) :
  contains s (w ++ x) = true -> contains s w = true.
Proof.
  induction s as [|c s IH]; cbn [contains]; intros H.
  - apply orb_true_iff in H as [H|H]; [|discriminate].
    rewrite (RegexFacts.prefix_app_l w x EmptyString H). reflexivity.
  - apply orb_true_iff in H as [H|H]; apply orb_true_iff.
    + left. apply (RegexFacts.prefix_app_l w x), H.
    + right. apply IH, H.
Qed.

(** Because the check looks for the regex source text [\bfunc\s*\(] as a
    plain substring, a document none of whose lines contains a backslash gets
    no missing-math-prefix warning at all. *)
Theorem math_prefix_needs_backslash (lines : list string) :
  (forall line, In line lines -> contains line "\" = false) ->
  MathPrefix.check lines = [].
Proof.
  intros Hno. unfold MathPrefix.check.
  assert (G : forall {A B} (f : A -> list B) l, (forall x, In x l -> f x = []) -> flat_map f l = []).
  { intros A B f l H. induction l as [|x l IH]; simpl; [reflexivity|].
    rewrite H by (left; reflexivity). apply IH. intros y Hy. apply H. right; exact Hy. }
  apply G. intros func _. apply G. intros [i line] Hin.
  apply enumerate_in in Hin as [_ Hn]. apply nth_error_In in Hn.
  unfold MathPrefix.line_warnings.
  destruct (contains line (MathPrefix.pattern func)) eqn:E; [|reflexivity].
  exfalso. unfold MathPrefix.pattern in E.
  apply (contains_app_l line "\" ("b" ++ func ++ "\s*\(")) in E.
  rewrite (Hno line Hn) in E. discriminate.
Qed.

Lemma math_prefix_needs_backslash_witness :
  MathPrefix.check ["y = sin(x) + max(a, b)"; "z = abs(y)"] = [].
Proof.
  apply math_prefix_needs_backslash. intros line Hin.
  destruct Hin as [<-|[<-|[]]]; vm_compute; reflexivity.
Defined.

(* ------------------------------------------------------------------ *)
(** ** Duplicate declarations: what an error points at *)

Module DeclsRange.

(** A duplicate-declaration error at a line of [ls], lines numbered from [k]. *)
Definition dup_ok (k : nat) (ls : list string) (e : error) : Prop :=
  exists i x first line m,
    e = EAlreadyDefined i x first /\ 1 <= first < i /\ k <= i /\
    nth_error ls (i - k) = Some line /\ startswith (strip line) "var " = true /\
    rmatch Decls.var_re (strip line) = Some m /\ cap m = Some x.

Lemma line_step_shape (st : Decls.dstate) (i : nat) (line : string) :
  (forall x v, fst (Decls.line_step st (i, line)) !! x = Some v -> fst st !! x = Some v \/ v = i) /\
  (snd (Decls.line_step st (i, line)) = snd st \/
   exists x first m, snd (Decls.line_step st (i, line)) = app (snd st) [EAlreadyDefined i x first] /\
     fst st !! x = Some first /\ startswith (strip line) "var " = true /\
     rmatch Decls.var_re (strip line) = Some m /\ cap m = Some x).
Proof.
  destruct st as [dv errs]. unfold Decls.line_step.
  repeat case_match; simplify_eq/=;
    try (split; [intros x v Hv; left; exact Hv | left; reflexivity]).
  - split; [intros x v Hv; left; exact Hv|]. right. eauto 8.
  - split; [|left; reflexivity]. intros x v Hv.
    apply lookup_insert_Some in Hv as [[_ <-]|[_ Hv]]; auto.
  - split; [|left; reflexivity]. intros x v Hv.
    apply lookup_insert_Some in Hv as [[_ <-]|[_ Hv]]; auto.
Qed.

Lemma scan_dups (ls : list string) : forall (st : Decls.dstate) (k : nat),
  1 <= k -> (forall x v, fst st !! x = Some v -> 1 <= v < k) ->
  exists new, snd (Decls.scan_from st k ls) = app (snd st) new /\
    forall e, In e new -> dup_ok k ls e.
Proof.
  induction ls as [|l ls IH]; intros st k Hk Hst.
  - exists []. rewrite app_nil_r. split; [reflexivity | intros e []].
  - change (Decls.scan_from st k (l :: ls)) with (Decls.scan_from (Decls.line_step st (k, l)) (S k) ls).
    destruct (line_step_shape st k l) as [Hmap Herr].
    destruct (IH (Decls.line_step st (k, l)) (S k)) as (new2 & E2 & F2); [lia| |].
    { intros x v Hv. destruct (Hmap x v Hv) as [Hv' | ->]; [specialize (Hst x v Hv'); lia | lia]. }
    assert (Hlift : forall e, dup_ok (S k) ls e -> dup_ok k (l :: ls) e).
    { intros e (i & x & first & line & m & -> & H1 & H2 & H3 & H4 & H5 & H6).
      exists i, x, first, line, m. repeat split; try assumption; try lia.
      replace (i - k) with (S (i - S k)) by lia. exact H3. }
    rewrite E2. destruct Herr as [E1|(x & first & m & E1 & Hf & Hv & Hm & Hc)]; rewrite E1.
    + exists new2. split; [reflexivity|]. intros e He. apply Hlift, F2, He.
    + exists (app [EAlreadyDefined k x first] new2). rewrite app_assoc. split; [reflexivity|].
      intros e [<-|He]; [|apply Hlift, F2, He].
      exists k, x, first, l, m. specialize (Hst x first Hf).
      rewrite Nat.sub_diag. repeat split; try assumption; try lia.
Qed.

End DeclsRange.

(** Every error of the duplicate-declaration check is an "already defined"
    error at some line [i] of the document whose stripped text starts with
    [var ] and matches the declaration pattern for the reported name, and it
    names a first line in [1..i-1]. *)
Theorem duplicate_decl_errors_shape (lines : list string) (e : error) :
  In e (Decls.check lines) ->
  exists i x first line m,
    e = EAlreadyDefined i x first /\ 1 <= first < i /\
    nth_error lines (i - 1) = Some line /\ startswith (strip line) "var " = true /\
    rmatch Decls.var_re (strip line) = Some m /\ cap m = Some x.
Proof.
  intros He. unfold Decls.check in He.
  destruct (DeclsRange.scan_dups lines (∅, []) 1 (le_n 1)) as (new & E & F).
  { intros x v Hv. simpl in Hv. rewrite lookup_empty in Hv. discriminate. }
  rewrite E in He. simpl in He.
  destruct (F e He) as (i & x & first & line & m & -> & H1 & _ & H3 & H4 & H5 & H6).
  exists i, x, first, line, m. exact (conj eq_refl (conj H1 (conj H3 (conj H4 (conj H5 H6))))).
Qed.

Lemma duplicate_decl_errors_shape_witness :
  In (EAlreadyDefined 3 "x" 1) (Decls.check ["x = 1"; "y = 2"; "var int x = 3"]) /\
  (exists i x first line m,
    EAlreadyDefined 3 "x" 1 = EAlreadyDefined i x first /\ 1 <= first < i /\
    nth_error ["x = 1"; "y = 2"; "var int x = 3"] (i - 1) = Some line /\
    startswith (strip line) "var " = true /\
    rmatch Decls.var_re (strip line) = Some m /\ cap m = Some x).
Proof.
  assert (H : In (EAlreadyDefined 3 "x" 1) (Decls.check ["x = 1"; "y = 2"; "var int x = 3"]))
    by (vm_compute; left; reflexivity).
  split; [exact H|]. exact (duplicate_decl_errors_shape _ _ H).
Defined.

(* ------------------------------------------------------------------ *)
(** ** Version directive with a number of any length *)

Module RegexRun.













End RegexRun.



(* ------------------------------------------------------------------ *)
(** ** check_common_issues: the version-6 block *)

Module CommonFacts.
Import Common.



End CommonFacts.




(* ------------------------------------------------------------------ *)
(** ** main: exit status *)



(* ------------------------------------------------------------------ *)
(** ** check_common_issues: substring tests *)

Module ContainsFacts.







End ContainsFacts.




